(** * python_fluente, capitulo_1/codigo.py: the French deck, its sort key
    and the vector

    A shallow embedding of [Card], [FrenchDeck], [suit_values],
    [spades_high] and the integer part of [Vector], together with the
    parts of the Python data model the source relies on without defining
    them: list subscription (integer and slice), [list.index],
    dictionary lookup, the sequence iteration protocol behind [in] and
    [sorted], the stable sort of [sorted], and [random.choice].

    Python integers are [Z], strings are [string], lists are [list], the
    dictionary is a [gmap].  A call that can raise returns a [result]. *)

From Stdlib Require Import ZArith List String Ascii DecimalPos DecimalZ DecimalString.
From Stdlib Require Import Sorted Lia.
From stdpp Require Import base option list sorting gmap strings.

Local Open Scope string_scope.
Local Open Scope list_scope.
Local Open Scope Z_scope.

(** ** Exceptions and results *)

Inductive exn : Set :=
| IndexError
| KeyError
| ValueError
| OverflowError.

Inductive result (A : Type) : Type :=
| Ok (a : A)
| Raise (e : exn).

Arguments Ok {A} a.
Arguments Raise {A} e.

#[global] Instance result_ret : MRet result := λ A, Ok.

#[global] Instance result_bind : MBind result := λ A B k c,
  match c with
  | Ok a => k a
  | Raise e => Raise e
  end.

(** Calls [f] on the elements from left to right; the first call that
    raises ends the traversal. *)
Fixpoint map_results {A B : Type} (f : A → result B) (l : list A) : result (list B) :=
  match l with
  | [] => Ok []
  | x :: l' => y ← f x; ys ← map_results f l'; Ok (y :: ys)
  end.

(** ** The built-ins the source calls *)

Module Py.

(** [str(n)] on an integer: its decimal numeral. *)
Definition str (n : Z) : string := NilZero.string_of_int (Z.to_int n).

(** [range(a, b)] *)
Definition range (a b : Z) : list Z :=
  map (λ k, a + Z.of_nat k) (seq 0 (Z.to_nat (b - a))).

(** [list(s)] on a string: its characters, each a one-character string. *)
Definition list_of_str (s : string) : list string :=
  map (λ c, String c EmptyString) (list_ascii_of_string s).

(** ASCII white space as [str.split()] sees it. *)
Definition is_space (c : ascii) : bool :=
  let n := nat_of_ascii c in
  ((9 <=? n)%nat && (n <=? 13)%nat) || ((28 <=? n)%nat && (n <=? 32)%nat).

(** [s.split()]: maximal runs of characters that are not white space.
    [word] is the run being read, in reverse. *)
Fixpoint split_go (word : list ascii) (s : string) : list string :=
  let flush (rest : list string) :=
    match word with
    | [] => rest
    | _ => string_of_list_ascii (rev word) :: rest
    end in
  match s with
  | EmptyString => flush []
  | String c s' =>
      if is_space c then flush (split_go [] s') else split_go (c :: word) s'
  end.

Definition split (s : string) : list string := split_go [] s.

(** [len] *)
Definition len {A : Type} (l : list A) : Z := Z.of_nat (length l).

(** [l.index(x)]: the first position of [x], [ValueError] when absent. *)
Fixpoint index `{EqDecision A} (l : list A) (x : A) : result Z :=
  match l with
  | [] => Raise ValueError
  | y :: l' => if decide (y = x) then Ok 0 else i ← index l' x; Ok (i + 1)
  end.

(** [d[k]] on a dictionary: [KeyError] when the key is absent. *)
Definition dict_getitem {V : Type} (d : gmap string V) (k : string) : result V :=
  match d !! k with
  | Some v => Ok v
  | None => Raise KeyError
  end.

(** A subscript is an integer or a slice [start:stop:step], each part
    of which may be left out. *)
Record slice : Set := Slice_ { start : option Z; stop : option Z; step : option Z }.

Inductive position : Set :=
| Index (i : Z)
| Slice (s : slice).

(** What a list subscription evaluates to: one element at an integer,
    a new list at a slice. *)
Definition item (A : Type) (p : position) : Type :=
  match p with
  | Index _ => A
  | Slice _ => list A
  end.

(** A given slice bound, brought into the list: a negative bound
    counts from the end, and both are clipped. *)
Definition clip (n lower upper i : Z) : Z :=
  if i <? 0 then Z.max (i + n) lower else Z.min i upper.

(** [slice.indices(n)]: a zero step is a [ValueError]. *)
Definition slice_indices (n : Z) (s : slice) : result (Z * Z * Z) :=
  let st := default 1 (step s) in
  if st =? 0 then Raise ValueError
  else
    let lower := if st <? 0 then -1 else 0 in
    let upper := if st <? 0 then n - 1 else n in
    let a := match start s with
             | None => if st <? 0 then upper else lower
             | Some i => clip n lower upper i
             end in
    let b := match stop s with
             | None => if st <? 0 then lower else upper
             | Some i => clip n lower upper i
             end in
    Ok (a, b, st).

(** The number of positions [a, a+st, a+2st, ...] before [b]. *)
Definition slice_length (a b st : Z) : Z :=
  if st <? 0 then
    if b <? a then (a - b - 1) / (- st) + 1 else 0
  else
    if a <? b then (b - a - 1) / st + 1 else 0.

(** [l[i]] at an integer: a negative [i] counts from the end. *)
Definition item_at {A : Type} (l : list A) (i : Z) : result A :=
  let i' := if i <? 0 then i + len l else i in
  if (i' <? 0) || (len l <=? i') then Raise IndexError
  else match l !! Z.to_nat i' with
       | Some x => Ok x
       | None => Raise IndexError
       end.

(** [l[start:stop:step]]: the elements at [a], [a+st], ... as a new
    list. *)
Definition slice_of {A : Type} (l : list A) (s : slice) : result (list A) :=
  '(a, b, st) ← slice_indices (len l) s;
  Ok (omap (λ k, l !! Z.to_nat (a + Z.of_nat k * st))
           (seq 0 (Z.to_nat (slice_length a b st)))).

(** [l[position]] on a list. *)
Definition subscript {A : Type} (l : list A) (p : position) : result (item A p) :=
  match p return result (item A p) with
  | Index i => item_at l i
  | Slice s => slice_of l s
  end.

(** The iteration protocol of a class that defines [__getitem__] but
    neither [__iter__] nor [__contains__]: the items at 0, 1, 2, ...
    until [IndexError].  [None] when [fuel] runs out first. *)
Fixpoint iter {A : Type} (getitem : Z → result A) (fuel : nat) (i : Z)
  : option (result (list A)) :=
  match fuel with
  | O => None
  | S fuel' =>
      match getitem i with
      | Raise IndexError => Some (Ok [])
      | Raise e => Some (Raise e)
      | Ok x =>
          match iter getitem fuel' (i + 1) with
          | Some (Ok xs) => Some (Ok (x :: xs))
          | r => r
          end
      end
  end.

(** [x in s] through the same protocol: stops at the first item equal
    to [x]. *)
Fixpoint contains `{EqDecision A} (getitem : Z → result A) (x : A)
  (fuel : nat) (i : Z) : option (result bool) :=
  match fuel with
  | O => None
  | S fuel' =>
      match getitem i with
      | Raise IndexError => Some (Ok false)
      | Raise e => Some (Raise e)
      | Ok y => if decide (y = x) then Some (Ok true)
                else contains getitem x fuel' (i + 1)
      end
  end.

(** [list.sort] is stable.  One step of its insertion: [x], with key
    [kx], goes behind every element of the sorted prefix whose key is
    not greater. *)
Fixpoint insort {A : Type} (kx : Z) (x : A) (l : list (Z * A)) : list (Z * A) :=
  match l with
  | [] => [(kx, x)]
  | (ky, y) :: l' =>
      if kx <? ky then (kx, x) :: (ky, y) :: l' else (ky, y) :: insort kx x l'
  end.

Definition sort_keyed {A : Type} (l : list (Z * A)) : list (Z * A) :=
  fold_left (λ acc kx, insort kx.1 kx.2 acc) l [].

(** [sorted(l, key=key)]: all keys are computed first, in order, and
    the first one that raises ends the call. *)
Definition sorted {A : Type} (key : A → result Z) (l : list A) : result (list A) :=
  ks ← map_results key l;
  Ok (map snd (sort_keyed (zip ks l))).

(** [repr(n)] on an integer is its decimal numeral too. *)
Definition repr (n : Z) : string := str n.

(** [random.choice(seq)]: the item at the position the generator draws
    below [len(seq)]; an empty sequence is an [IndexError].
    [randbelow] is the generator. *)
Definition choice {A : Type} (randbelow : Z → Z) (length : Z)
  (getitem : Z → result A) : result A :=
  if length =? 0 then Raise IndexError else getitem (randbelow length).



End Py.

(** ** The source *)

(** [Card = collections.namedtuple("Card", ["rank", "suit"])] *)
Record Card : Set := mkCard { rank : string; suit : string }.

#[global] Instance Card_eq_dec : EqDecision Card.
Proof. solve_decision. Defined.

Record FrenchDeck : Set := mkFrenchDeck { _cards : list Card }.

Module FrenchDeck.

Definition ranks : list string :=
  map Py.str (Py.range 2 11) ++ Py.list_of_str "JQKA".

Definition suits : list string := Py.split "spades diamonds clubs hearts".

Definition __init__ : FrenchDeck :=
  {| _cards := flat_map (λ suit, map (λ rank, mkCard rank suit) ranks) suits |}.

Definition __len__ (self : FrenchDeck) : Z := Py.len (_cards self).

Definition __getitem__ (self : FrenchDeck) (position : Py.position)
  : result (Py.item Card position) :=
  Py.subscript (_cards self) position.

End FrenchDeck.

Definition suit_values : gmap string Z :=
  <["clubs" := 0]> (<["diamonds" := 1]> (<["hearts" := 2]> (<["spades" := 3]> ∅))).

Definition spades_high (card : Card) : result Z :=
  rank_value ← Py.index FrenchDeck.ranks (rank card);
  weight ← Py.dict_getitem suit_values (suit card);
  Ok (rank_value * Z.of_nat (size suit_values) + weight).

(** ** The deck under the protocols of the language

    [FrenchDeck] defines neither [__iter__] nor [__contains__]: [for],
    [sorted] and [in] reach the cards through [__getitem__] at the
    integers 0, 1, 2, ... *)

Definition deck_item (deck : FrenchDeck) (i : Z) : result Card :=
  FrenchDeck.__getitem__ deck (Py.Index i).

(** [list(deck)], [for card in deck] *)
Definition deck_iter (fuel : nat) (deck : FrenchDeck) : option (result (list Card)) :=
  Py.iter (deck_item deck) fuel 0.

(** [card in deck] *)
Definition deck_contains (fuel : nat) (deck : FrenchDeck) (card : Card)
  : option (result bool) :=
  Py.contains (deck_item deck) card fuel 0.

(** [sorted(deck, key=key)] *)
Definition deck_sorted (fuel : nat) (key : Card → result Z) (deck : FrenchDeck)
  : option (result (list Card)) :=
  match deck_iter fuel deck with
  | Some (Ok l) => Some (Py.sorted key l)
  | Some (Raise e) => Some (Raise e)
  | None => None
  end.

(** [choice(deck)] *)
Definition deck_choice (randbelow : Z → Z) (deck : FrenchDeck) : result Card :=
  Py.choice randbelow (FrenchDeck.__len__ deck) (deck_item deck).

(** The methods of the class as calls on an object: each call leaves an
    object behind and answers.  No method body assigns to [self]. *)
Inductive method : Set :=
| Len
| Getitem (position : Py.position).

Inductive answer : Type :=
| Length (n : Z)
| Item (position : Py.position) (r : result (Py.item Card position)).

Definition call (self : FrenchDeck) (m : method) : FrenchDeck * answer :=
  match m with
  | Len => (self, Length (FrenchDeck.__len__ self))
  | Getitem p => (self, Item p (FrenchDeck.__getitem__ self p))
  end.

(** The object left by a sequence of calls. *)
Definition calls (self : FrenchDeck) (ms : list method) : FrenchDeck :=
  fold_left (λ d m, (call d m).1) ms self.

(** ** [Vector], on integer components

    The class takes any numbers.  Here the components and the scalar
    are Python integers, whose sum and product are exact.  [__abs__] and
    [__bool__] go through the floating-point [math.hypot]: the type of
    floats, the rounding of an integer to a float, [math.hypot] on two
    floats and the test that a float is not zero are parameters; the
    test that an integer is too large for a float is not. *)

Module Vector.

Record Vector : Set := mk { x : Z; y : Z }.

(** [Vector(x=0, y=0)]: an argument left out is 0. *)
Definition __init__ (x y : option Z) : Vector :=
  {| x := default 0 x; y := default 0 y |}.

Definition __repr__ (self : Vector) : string :=
  ("Vector(" ++ Py.repr (x self) ++ ", " ++ Py.repr (y self) ++ ")")%string.

Definition __add__ (self other : Vector) : Vector :=
  __init__ (Some (x self + x other)) (Some (y self + y other)).

Definition __mul__ (self : Vector) (scalar : Z) : Vector :=
  __init__ (Some (x self * scalar)) (Some (y self * scalar)).

Section Float.
Context {float : Type}.
Context (round : Z → float) (hypot : float → float → float) (nonzero : float → bool).



End Float.

End Vector.

(** ** The specification's vocabulary *)

Module Spec.

(** The fixed 13-value rank domain. *)
Definition rank_domain : list string :=
  ["2"; "3"; "4"; "5"; "6"; "7"; "8"; "9"; "10"; "J"; "Q"; "K"; "A"].

(** The zero-based position of a value in a list, if it is there. *)
Fixpoint position_in (l : list string) (x : string) : option Z :=
  match l with
  | [] => None
  | y :: l' => if decide (y = x) then Some 0 else Z.succ <$> position_in l' x
  end.

Definition rankIndex (r : string) : option Z := position_in rank_domain r.

(** The RankWeight table. *)
Definition suitWeight (s : string) : option Z :=
  if decide (s = "spades") then Some 3
  else if decide (s = "hearts") then Some 2
  else if decide (s = "diamonds") then Some 1
  else if decide (s = "clubs") then Some 0
  else None.

Definition numberOfSuits : Z := 4.

End Spec.

(** ** The order of the keys in a sort *)

Definition key_le {A : Type} : relation (Z * A) := λ p q, p.1 ≤ q.1.

(** ** The class attributes and the table, evaluated *)

Lemma ranks_eq : FrenchDeck.ranks = Spec.rank_domain.
Proof. by vm_compute. Qed.

Lemma suits_eq : FrenchDeck.suits = ["spades"; "diamonds"; "clubs"; "hearts"].
Proof. by vm_compute. Qed.

Lemma suit_values_size : size suit_values = 4%nat.
Proof. by vm_compute. Qed.

Lemma suit_values_lookup (s : string) : suit_values !! s = Spec.suitWeight s.
Proof.
  unfold suit_values, Spec.suitWeight.
  rewrite !lookup_insert, lookup_empty.
  repeat case_decide; simplify_eq; done.
Qed.

Lemma cards_length : length (_cards FrenchDeck.__init__) = 52%nat.
Proof. by vm_compute. Qed.

(** ** [list.index] *)

Lemma index_position_in (l : list string) (x : string) :
  Py.index l x = match Spec.position_in l x with
                 | Some i => Ok i
                 | None => Raise ValueError
                 end.
Proof.
  induction l as [|y l IH]; simpl; [done|].
  case_decide; [done|].
  rewrite IH. destruct (Spec.position_in l x); simpl; [|done].
  reflexivity.
Qed.

Lemma position_in_None (l : list string) (x : string) :
  Spec.position_in l x = None ↔ x ∉ l.
Proof.
  induction l as [|y l IH]; simpl.
  - split; [intros _; apply not_elem_of_nil | done].
  - rewrite not_elem_of_cons. case_decide as Hy.
    + split; [done | intros [? _]; congruence].
    + rewrite fmap_None, IH. split; [intros; split; congruence | tauto].
Qed.

Lemma index_absent (l : list string) (x : string) :
  x ∉ l → Py.index l x = Raise ValueError.
Proof.
  intros Hx. rewrite index_position_in.
  apply position_in_None in Hx. by rewrite Hx.
Qed.

Lemma index_present (l : list string) (x : string) (i : Z) :
  Py.index l x = Ok i → x ∈ l.
Proof.
  rewrite index_position_in. intros Hi.
  destruct (decide (x ∈ l)) as [|Hx]; [done|].
  apply position_in_None in Hx. rewrite Hx in Hi. discriminate.
Qed.

(** ** The sort key *)

Lemma spades_high_unfold (card : Card) :
  spades_high card =
    match Spec.rankIndex (rank card) with
    | None => Raise ValueError
    | Some i =>
        match Spec.suitWeight (suit card) with
        | None => Raise KeyError
        | Some w => Ok (i * 4 + w)
        end
    end.
Proof.
  unfold spades_high, Py.dict_getitem, Spec.rankIndex.
  rewrite index_position_in, ranks_eq, suit_values_lookup, suit_values_size.
  destruct (Spec.position_in _ _); simpl; [|done].
  by destruct (Spec.suitWeight _).
Qed.

Lemma spades_high_deck :
  Forall (λ c, ∃ v, spades_high c = Ok v ∧ v ≤ 51) (_cards FrenchDeck.__init__).
Proof.
  apply Forall_forall. intros c Hc.
  assert (Hv : match spades_high c with Ok v => v <=? 51 | Raise _ => false end = true).
  { revert c Hc. apply Forall_forall.
    apply (bool_decide_unpack _). by vm_compute. }
  destruct (spades_high c) as [v|]; [|done].
  exists v. split; [done|]. by apply Z.leb_le.
Qed.

(** C1: on every card [spades_high] is [rankIndex(rank) * 4 +
    suitWeight(suit)], with [rankIndex] the zero-based position in the
    13-value rank domain and [suitWeight] the table spades=3, hearts=2,
    diamonds=1, clubs=0; it gives 0 on the 2 of clubs, 3 on the 2 of
    spades and 51 on the ace of spades, the greatest value over the 52
    cards of the deck. *)
Theorem spades_high_formula :
  (∀ (card : Card) (i w : Z),
      Spec.rankIndex (rank card) = Some i →
      Spec.suitWeight (suit card) = Some w →
      spades_high card = Ok (i * Spec.numberOfSuits + w)) ∧
  spades_high (mkCard "2" "clubs") = Ok 0 ∧
  spades_high (mkCard "2" "spades") = Ok 3 ∧
  spades_high (mkCard "A" "spades") = Ok 51 ∧
  mkCard "A" "spades" ∈ _cards FrenchDeck.__init__ ∧
  (∀ card : Card, card ∈ _cards FrenchDeck.__init__ →
      ∃ v : Z, spades_high card = Ok v ∧ v ≤ 51).
Proof.
  repeat apply conj.
  - intros card i w Hi Hw. rewrite spades_high_unfold, Hi, Hw. done.
  - by vm_compute.
  - by vm_compute.
  - by vm_compute.
  - apply (bool_decide_unpack _). by vm_compute.
  - intros card Hc. by apply (proj1 (Forall_forall _ _) spades_high_deck).
Qed.

Lemma spades_high_formula_witness :
  Spec.rankIndex (rank (mkCard "K" "hearts")) = Some 11 ∧
  Spec.suitWeight (suit (mkCard "K" "hearts")) = Some 2 ∧
  spades_high (mkCard "K" "hearts") = Ok (11 * Spec.numberOfSuits + 2).
Proof.
  split; [reflexivity|]. split; [reflexivity|].
  apply (proj1 spades_high_formula (mkCard "K" "hearts") 11 2); reflexivity.
Defined.

(** ** List subscription *)

Section Subscript.
Context {A : Type}.
Implicit Types (l : list A) (x : A) (i : Z) (n : nat).

Lemma subscript_index_ok l n x :
  l !! n = Some x → Py.subscript l (Py.Index (Z.of_nat n)) = Ok x.
Proof.
  intros Hx. pose proof (lookup_lt_Some _ _ _ Hx) as Hn.
  unfold Py.subscript, Py.item_at, Py.len. cbv zeta.
  rewrite (proj2 (Z.ltb_ge (Z.of_nat n) 0)) by lia. cbv iota.
  rewrite (proj2 (Z.ltb_ge (Z.of_nat n) 0)) by lia.
  rewrite (proj2 (Z.leb_gt (Z.of_nat (length l)) (Z.of_nat n))) by lia.
  cbn [orb]. by rewrite Nat2Z.id, Hx.
Qed.

Lemma subscript_index_out l i :
  ¬ (0 ≤ (if i <? 0 then i + Py.len l else i) < Py.len l) →
  Py.subscript l (Py.Index i) = Raise IndexError.
Proof.
  intros Hout. unfold Py.subscript, Py.item_at. cbv zeta.
  set (j := if i <? 0 then i + Py.len l else i) in *.
  destruct (Z.ltb_spec j 0) as [|Hj]; [done|].
  destruct (Z.leb_spec (Py.len l) j) as [|Hj']; [done|].
  lia.
Qed.

Lemma subscript_index_end l :
  Py.subscript l (Py.Index (Py.len l)) = Raise IndexError.
Proof.
  apply subscript_index_out. unfold Py.len.
  destruct (Z.ltb_spec (Z.of_nat (length l)) 0); lia.
Qed.

Lemma subscript_slice_ok l (s : Py.slice) :
  Py.step s ≠ Some 0 → ∃ r : list A, Py.subscript l (Py.Slice s) = Ok r.
Proof.
  intros Hs. unfold Py.subscript, Py.slice_of, Py.slice_indices.
  destruct (Z.eqb_spec (default 1 (Py.step s)) 0) as [Hz|_].
  - destruct (Py.step s) as [st|]; simpl in Hz; [congruence | lia].
  - simpl. eauto.
Qed.

Lemma subscript_slice_zero l (s : Py.slice) :
  Py.step s = Some 0 → Py.subscript l (Py.Slice s) = Raise ValueError.
Proof.
  intros Hs. unfold Py.subscript, Py.slice_of, Py.slice_indices.
  by rewrite Hs.
Qed.

(** The product of two lists, as the comprehension of [__init__]
    builds it, is read back by position. *)
Lemma lookup_product {B C : Type} (g : B → A → C) (xs : list B) (ys : list A)
    (i j : nat) (b : B) (a : A) :
  xs !! i = Some b → ys !! j = Some a →
  flat_map (λ b', map (g b') ys) xs !! (i * length ys + j)%nat = Some (g b a).
Proof.
  intros Hb Ha. revert i Hb.
  induction xs as [|b0 xs IH]; intros i Hb; [done|].
  simpl. destruct i as [|i]; simpl in *.
  - simplify_eq. rewrite lookup_app_l.
    + change (map (g b) ys) with (g b <$> ys). by rewrite list_lookup_fmap, Ha.
    + rewrite length_map. by eapply lookup_lt_Some.
  - rewrite lookup_app_r; rewrite length_map; [|lia].
    replace (length ys + i * length ys + j - length ys)%nat
      with (i * length ys + j)%nat by lia.
    by apply IH.
Qed.

End Subscript.

Lemma elem_of_cards (r s : string) :
  mkCard r s ∈ _cards FrenchDeck.__init__ ↔
  r ∈ FrenchDeck.ranks ∧ s ∈ FrenchDeck.suits.
Proof.
  unfold FrenchDeck.__init__. cbn [_cards].
  rewrite !list_elem_of_In, in_flat_map. split.
  - intros (s' & Hs' & Hc). apply in_map_iff in Hc as (r' & Heq & Hr').
    by simplify_eq.
  - intros [Hr Hs]. exists s. split; [done|].
    apply in_map_iff. by exists r.
Qed.

Lemma calls_same (self : FrenchDeck) (ms : list method) : calls self ms = self.
Proof.
  unfold calls. induction ms as [|m ms IH]; [done|].
  simpl. by destruct m.
Qed.

(** C2: a freshly constructed deck holds exactly 52 cards, one for
    every pair of a rank and a suit and none twice, and no sequence of
    calls of its methods changes it. *)
Theorem deck_invariant :
  FrenchDeck.__len__ FrenchDeck.__init__ = 52 ∧
  Py.len FrenchDeck.ranks * Py.len FrenchDeck.suits = 52 ∧
  NoDup (_cards FrenchDeck.__init__) ∧
  (∀ r s : string,
      mkCard r s ∈ _cards FrenchDeck.__init__ ↔
      r ∈ FrenchDeck.ranks ∧ s ∈ FrenchDeck.suits) ∧
  (∀ ms : list method,
      calls FrenchDeck.__init__ ms = FrenchDeck.__init__ ∧
      FrenchDeck.__len__ (calls FrenchDeck.__init__ ms) = 52).
Proof.
  repeat apply conj.
  - by vm_compute.
  - by vm_compute.
  - apply (bool_decide_unpack _). by vm_compute.
  - apply elem_of_cards.
  - intros ms. by rewrite calls_same.
Qed.

(** C3: the cards are laid out by the nested iteration, suits outside
    in the order spades, diamonds, clubs, hearts and ranks inside in
    their declared order: the card of the i-th suit and j-th rank is at
    position 13 i + j; position 0 holds the 2 of spades and position -1
    the ace of hearts. *)
Theorem construction_order :
  FrenchDeck.suits = ["spades"; "diamonds"; "clubs"; "hearts"] ∧
  FrenchDeck.ranks =
    ["2"; "3"; "4"; "5"; "6"; "7"; "8"; "9"; "10"; "J"; "Q"; "K"; "A"] ∧
  (∀ (i j : nat) (r s : string),
      FrenchDeck.suits !! i = Some s →
      FrenchDeck.ranks !! j = Some r →
      FrenchDeck.__getitem__ FrenchDeck.__init__
        (Py.Index (Z.of_nat (i * 13 + j))) = Ok (mkCard r s)) ∧
  FrenchDeck.__getitem__ FrenchDeck.__init__ (Py.Index 0) = Ok (mkCard "2" "spades") ∧
  FrenchDeck.__getitem__ FrenchDeck.__init__ (Py.Index (-1)) = Ok (mkCard "A" "hearts").
Proof.
  repeat apply conj.
  - by vm_compute.
  - by vm_compute.
  - intros i j r s Hs Hr. unfold FrenchDeck.__getitem__.
    apply subscript_index_ok. unfold FrenchDeck.__init__. cbn [_cards].
    change 13%nat with (length FrenchDeck.ranks).
    by apply (lookup_product (λ s' r', mkCard r' s')).
  - by vm_compute.
  - by vm_compute.
Qed.

Lemma construction_order_witness :
  FrenchDeck.__getitem__ FrenchDeck.__init__ (Py.Index (Z.of_nat (2 * 13 + 10)))
  = Ok (mkCard "Q" "clubs").
Proof.
  apply (proj1 (proj2 (proj2 construction_order)) 2%nat 10%nat "Q" "clubs");
    reflexivity.
Defined.

(** ** Errors of the sort key *)

Lemma map_results_Ok {A B : Type} (f : A → result B) (l : list A) (ys : list B) :
  map_results f l = Ok ys → Forall2 (λ x y, f x = Ok y) l ys.
Proof.
  revert ys. induction l as [|x l IH]; intros ys; simpl.
  - intros [= <-]. constructor.
  - destruct (f x) as [y|] eqn:Hy; simpl; [|done].
    destruct (map_results f l) as [ys'|]; simpl; [|done].
    intros [= <-]. constructor; [done | by apply IH].
Qed.

Lemma map_results_Forall2 {A B : Type} (f : A → result B) (l : list A) (ys : list B) :
  Forall2 (λ x y, f x = Ok y) l ys → map_results f l = Ok ys.
Proof.
  induction 1 as [|x y l ys Hy _ IH]; simpl; [done|].
  by rewrite Hy, IH.
Qed.

Lemma sorted_raises {A : Type} (key : A → result Z) (l : list A) (x : A) (e : exn) :
  x ∈ l → key x = Raise e → ∃ e', Py.sorted key l = Raise e'.
Proof.
  intros Hx He. unfold Py.sorted.
  destruct (map_results key l) as [ks|e'] eqn:Hks; simpl; [|by eexists].
  apply map_results_Ok in Hks.
  apply list_elem_of_lookup in Hx as [i Hi].
  destruct (Forall2_lookup_l _ _ _ i x Hks Hi) as (k & _ & Hk). congruence.
Qed.

(** C5, as the code has it: a card whose suit has no entry in
    [suit_values] never gets a value from [spades_high]; the call raises
    [KeyError] when the rank is one of the 13 declared ranks, and
    [ValueError], from the rank lookup that comes first, when it is not;
    the error also ends a [sorted] call that uses [spades_high] as key. *)
Theorem unknown_suit (card : Card) :
  suit_values !! suit card = None →
  (rank card ∈ FrenchDeck.ranks → spades_high card = Raise KeyError) ∧
  (rank card ∉ FrenchDeck.ranks → spades_high card = Raise ValueError) ∧
  (∀ v : Z, spades_high card ≠ Ok v) ∧
  (∀ l : list Card, card ∈ l → ∃ e, Py.sorted spades_high l = Raise e).
Proof.
  intros Hsuit.
  assert (Hrank : Spec.rankIndex (rank card) = None ↔ rank card ∉ FrenchDeck.ranks).
  { rewrite ranks_eq. apply position_in_None. }
  assert (Hno : ∃ e, spades_high card = Raise e).
  { rewrite spades_high_unfold, <- suit_values_lookup, Hsuit.
    destruct (Spec.rankIndex _); by eexists. }
  repeat apply conj.
  - intros Hr. rewrite spades_high_unfold, <- suit_values_lookup, Hsuit.
    destruct (Spec.rankIndex (rank card)); [done|].
    by destruct (proj1 Hrank eq_refl).
  - intros Hr. apply Hrank in Hr. by rewrite spades_high_unfold, Hr.
  - intros v Hv. destruct Hno as [e He]. congruence.
  - intros l Hl. destruct Hno as [e He]. by eapply sorted_raises.
Qed.

Lemma unknown_suit_witness :
  suit_values !! suit (mkCard "Q" "beasts") = None ∧
  spades_high (mkCard "Q" "beasts") = Raise KeyError.
Proof.
  split; [reflexivity|].
  apply (unknown_suit (mkCard "Q" "beasts")); [reflexivity|].
  apply (bool_decide_unpack _). vm_compute. exact I.
Defined.

(** C5 as stated fails: with a rank outside the 13 declared ranks the
    call raises [ValueError] although the suit has no entry. *)
Lemma unknown_suit_not_always_KeyError :
  suit_values !! suit (mkCard "1" "beasts") = None ∧
  spades_high (mkCard "1" "beasts") = Raise ValueError ∧
  ¬ (∀ card : Card,
        suit_values !! suit card = None → spades_high card = Raise KeyError).
Proof.
  repeat apply conj; [by vm_compute | by vm_compute |].
  intros H. specialize (H (mkCard "1" "beasts") eq_refl).
  vm_compute in H. discriminate.
Qed.

(** C10: with a suit of the table and a rank outside the 13 declared
    ranks, [spades_high] raises [ValueError], which is not the
    [KeyError] of a missing suit; whenever [spades_high] returns a
    value, the rank is one of the 13. *)
Theorem unknown_rank :
  (∀ card : Card,
      is_Some (suit_values !! suit card) →
      rank card ∉ FrenchDeck.ranks →
      spades_high card = Raise ValueError) ∧
  ValueError ≠ KeyError ∧
  (∀ (card : Card) (v : Z),
      spades_high card = Ok v → rank card ∈ FrenchDeck.ranks).
Proof.
  repeat apply conj.
  - intros card _ Hr. unfold spades_high. by rewrite index_absent.
  - discriminate.
  - intros card v Hv. unfold spades_high in Hv.
    destruct (Py.index FrenchDeck.ranks (rank card)) as [i|] eqn:Hi; [|done].
    by eapply index_present.
Qed.

Lemma unknown_rank_witness :
  is_Some (suit_values !! suit (mkCard "1" "spades")) ∧
  (rank (mkCard "1" "spades") ∉ FrenchDeck.ranks) ∧
  spades_high (mkCard "1" "spades") = Raise ValueError.
Proof.
  assert (Hs : is_Some (suit_values !! suit (mkCard "1" "spades"))).
  { exists 3. reflexivity. }
  assert (Hr : rank (mkCard "1" "spades") ∉ FrenchDeck.ranks).
  { apply (bool_decide_unpack _). vm_compute. exact I. }
  split; [exact Hs|]. split; [exact Hr|].
  exact (proj1 unknown_rank (mkCard "1" "spades") Hs Hr).
Defined.

(** ** Subscription of the deck *)

(** C6, as the code has it: an integer position whose normalized index
    is outside [0, 52) raises [IndexError]; a slice whose step is not
    zero never fails and gives a list; a slice whose step is zero raises
    [ValueError]. *)
Theorem getitem_errors :
  (∀ i : Z,
      ¬ (0 ≤ (if i <? 0 then i + 52 else i) < 52) →
      FrenchDeck.__getitem__ FrenchDeck.__init__ (Py.Index i) = Raise IndexError) ∧
  (∀ s : Py.slice,
      Py.step s ≠ Some 0 →
      ∃ l : list Card,
        FrenchDeck.__getitem__ FrenchDeck.__init__ (Py.Slice s) = Ok l) ∧
  (∀ s : Py.slice,
      Py.step s = Some 0 →
      FrenchDeck.__getitem__ FrenchDeck.__init__ (Py.Slice s) = Raise ValueError).
Proof.
  repeat apply conj.
  - intros i Hi. by apply subscript_index_out.
  - intros s Hs. by apply subscript_slice_ok.
  - intros s Hs. by apply subscript_slice_zero.
Qed.

Lemma getitem_errors_witness :
  FrenchDeck.__getitem__ FrenchDeck.__init__ (Py.Index (-53)) = Raise IndexError.
Proof. apply (proj1 getitem_errors (-53)). simpl. lia. Defined.

(** C6 as stated fails: the slice 0:10:0 raises. *)
Lemma getitem_slice_step_zero :
  FrenchDeck.__getitem__ FrenchDeck.__init__
    (Py.Slice (Py.Slice_ (Some 0) (Some 10) (Some 0))) = Raise ValueError ∧
  ¬ (∀ s : Py.slice,
        ∃ l : list Card,
          FrenchDeck.__getitem__ FrenchDeck.__init__ (Py.Slice s) = Ok l).
Proof.
  split; [by vm_compute|].
  intros H. destruct (H (Py.Slice_ (Some 0) (Some 10) (Some 0))) as [l Hl].
  vm_compute in Hl. discriminate.
Qed.

(** C7: the slice 0:10 is the ten cards at 0, ..., 9 in order, and
    the slice 0:10:2 is the five cards at 0, 2, 4, 6, 8. *)
Theorem slice_examples :
  let deck := FrenchDeck.__init__ in
  (∃ l : list Card,
      FrenchDeck.__getitem__ deck (Py.Slice (Py.Slice_ (Some 0) (Some 10) None)) = Ok l ∧
      length l = 10%nat ∧
      map_results (λ i, FrenchDeck.__getitem__ deck (Py.Index i))
        [0; 1; 2; 3; 4; 5; 6; 7; 8; 9] = Ok l) ∧
  (∃ l : list Card,
      FrenchDeck.__getitem__ deck (Py.Slice (Py.Slice_ (Some 0) (Some 10) (Some 2))) = Ok l ∧
      length l = 5%nat ∧
      map_results (λ i, FrenchDeck.__getitem__ deck (Py.Index i))
        [0; 2; 4; 6; 8] = Ok l).
Proof.
  split; eexists; (split; [by vm_compute|]); split; by vm_compute.
Qed.

(** ** The iteration protocol over a list *)

Section Protocol.
Context `{EqDecision A}.
Implicit Types (pre suf : list A) (x : A) (fuel : nat).

Lemma item_at_middle pre suf x :
  Py.item_at (pre ++ x :: suf) (Py.len pre) = Ok x.
Proof.
  apply (subscript_index_ok (pre ++ x :: suf) (length pre) x).
  by apply list_lookup_middle.
Qed.

Lemma item_at_end pre : Py.item_at pre (Py.len pre) = Raise IndexError.
Proof. apply (subscript_index_end pre). Qed.

Lemma len_snoc pre x : Py.len (pre ++ [x]) = Py.len pre + 1.
Proof. unfold Py.len. rewrite length_app. simpl. lia. Qed.

(** With more fuel than elements left, the iteration from the end of
    [pre] yields the rest of the list. *)
Lemma iter_suffix pre suf fuel :
  (length suf < fuel)%nat →
  Py.iter (Py.item_at (pre ++ suf)) fuel (Py.len pre) = Some (Ok suf).
Proof.
  revert pre fuel. induction suf as [|x suf IH]; intros pre fuel Hfuel;
    (destruct fuel as [|fuel]; [simpl in Hfuel; lia|]); simpl.
  - by rewrite app_nil_r, item_at_end.
  - rewrite item_at_middle, <- (len_snoc pre x).
    rewrite (cons_middle x pre suf), (assoc_L (++)).
    rewrite IH; [done | simpl in Hfuel; lia].
Qed.

Lemma contains_suffix pre suf x fuel :
  (length suf < fuel)%nat →
  Py.contains (Py.item_at (pre ++ suf)) x fuel (Py.len pre)
  = Some (Ok (bool_decide (x ∈ suf))).
Proof.
  revert pre fuel. induction suf as [|y suf IH]; intros pre fuel Hfuel;
    (destruct fuel as [|fuel]; [simpl in Hfuel; lia|]); simpl.
  - by rewrite app_nil_r, item_at_end.
  - rewrite item_at_middle. destruct (decide (y = x)) as [->|Hy].
    + do 2 f_equal. symmetry. apply bool_decide_eq_true.
      apply list_elem_of_here.
    + rewrite <- (len_snoc pre y), (cons_middle y pre suf), (assoc_L (++)).
      rewrite IH; [|simpl in Hfuel; lia]. do 2 f_equal.
      apply bool_decide_ext. rewrite elem_of_cons.
      split; [tauto | intros [?|?]; [congruence | done]].
Qed.

End Protocol.

Lemma deck_iter_cards (fuel : nat) (deck : FrenchDeck) :
  (length (_cards deck) < fuel)%nat →
  deck_iter fuel deck = Some (Ok (_cards deck)).
Proof. intros Hfuel. by apply (iter_suffix [] (_cards deck)). Qed.

Lemma deck_contains_cards (fuel : nat) (deck : FrenchDeck) (card : Card) :
  (length (_cards deck) < fuel)%nat →
  deck_contains fuel deck card = Some (Ok (bool_decide (card ∈ _cards deck))).
Proof. intros Hfuel. by apply (contains_suffix [] (_cards deck)). Qed.

(** C8: [card in deck] returns, and never raises: it is true exactly
    when some card of the deck has the same rank and the same suit; it
    is true for the queen of hearts and false for the queen of the suit
    beasts, which no card has. *)
Theorem contains_spec :
  (∀ (fuel : nat) (card : Card),
      (52 < fuel)%nat →
      ∃ b : bool,
        deck_contains fuel FrenchDeck.__init__ card = Some (Ok b) ∧
        (b = true ↔
         ∃ c : Card, c ∈ _cards FrenchDeck.__init__ ∧
                     rank c = rank card ∧ suit c = suit card)) ∧
  deck_contains 53 FrenchDeck.__init__ (mkCard "Q" "hearts") = Some (Ok true) ∧
  deck_contains 53 FrenchDeck.__init__ (mkCard "Q" "beasts") = Some (Ok false).
Proof.
  repeat apply conj.
  - intros fuel card Hfuel. eexists. split.
    + apply deck_contains_cards. by rewrite cards_length.
    + rewrite bool_decide_eq_true. split.
      * intros Hc. by exists card.
      * intros (c & Hc & Hr & Hs). destruct c, card. simpl in *. by subst.
  - by vm_compute.
  - by vm_compute.
Qed.

Lemma contains_spec_witness :
  ∃ b : bool,
    deck_contains 60 FrenchDeck.__init__ (mkCard "7" "clubs") = Some (Ok b) ∧
    (b = true ↔
     ∃ c : Card, c ∈ _cards FrenchDeck.__init__ ∧
                 rank c = rank (mkCard "7" "clubs") ∧
                 suit c = suit (mkCard "7" "clubs")).
Proof. apply (proj1 contains_spec 60%nat (mkCard "7" "clubs")). lia. Defined.

(** ** The stable sort *)

Section Sort.
Context {A : Type}.
Implicit Types (l acc : list (Z * A)) (k : Z) (x : A).

Lemma insort_perm k x l : Py.insort k x l ≡ₚ (k, x) :: l.
Proof.
  induction l as [|[ky y] l IH]; simpl; [done|].
  destruct (k <? ky); [done|]. rewrite IH. apply Permutation_swap.
Qed.

Lemma insort_last k x l :
  Forall (λ p, p.1 ≤ k) l → Py.insort k x l = l ++ [(k, x)].
Proof.
  induction 1 as [|[ky y] l Hy _ IH]; simpl; [done|].
  simpl in Hy. rewrite (proj2 (Z.ltb_ge k ky)) by lia. by rewrite IH.
Qed.

Lemma insort_sorted k x l :
  StronglySorted key_le l → StronglySorted key_le (Py.insort k x l).
Proof.
  induction 1 as [|[ky y] l Hl IH Hy]; simpl.
  - repeat constructor.
  - destruct (Z.ltb_spec k ky) as [Hk|Hk].
    + constructor; [by constructor|].
      constructor; [unfold key_le; simpl; lia|].
      eapply Forall_impl; [exact Hy|].
      intros [kz z]. unfold key_le. simpl. lia.
    + constructor; [done|]. rewrite insort_perm.
      constructor; [unfold key_le; simpl; lia | done].
Qed.

Lemma fold_insort_sorted l acc :
  StronglySorted key_le acc →
  StronglySorted key_le (fold_left (λ acc kx, Py.insort kx.1 kx.2 acc) l acc).
Proof.
  revert acc. induction l as [|p l IH]; intros acc Hacc; simpl; [done|].
  by apply IH, insort_sorted.
Qed.

Lemma fold_insort_perm l acc :
  fold_left (λ acc kx, Py.insort kx.1 kx.2 acc) l acc ≡ₚ acc ++ l.
Proof.
  revert acc. induction l as [|[k x] l IH]; intros acc; simpl.
  - by rewrite app_nil_r.
  - rewrite IH, insort_perm. simpl. apply Permutation_middle.
Qed.

(** On a prefix already sorted and followed by a sorted rest, every
    insertion lands at the end. *)
Lemma fold_insort_id l acc :
  StronglySorted key_le (acc ++ l) →
  fold_left (λ acc kx, Py.insort kx.1 kx.2 acc) l acc = acc ++ l.
Proof.
  revert acc. induction l as [|[k x] l IH]; intros acc Hs; simpl.
  - by rewrite app_nil_r.
  - rewrite insort_last.
    + rewrite IH; rewrite <- (assoc_L (++)); done.
    + apply Forall_forall. intros q Hq.
      apply (StronglySorted_app_1_elem_of key_le acc ((k, x) :: l) q (k, x) Hs Hq).
      apply list_elem_of_here.
Qed.

Lemma sort_keyed_sorted l : StronglySorted key_le (Py.sort_keyed l).
Proof. apply fold_insort_sorted. constructor. Qed.

Lemma sort_keyed_perm l : Py.sort_keyed l ≡ₚ l.
Proof. apply (fold_insort_perm l []). Qed.

Lemma sort_keyed_id l : StronglySorted key_le l → Py.sort_keyed l = l.
Proof. apply (fold_insort_id l []). Qed.

(** Sorting what [sorted] returned, by the same key, returns it
    unchanged. *)
Lemma sorted_idempotent (key : A → result Z) (xs s : list A) :
  Py.sorted key xs = Ok s → Py.sorted key s = Ok s.
Proof.
  unfold Py.sorted.
  destruct (map_results key xs) as [ks|] eqn:Hks; simpl; [|done].
  intros [= <-]. set (p := Py.sort_keyed (zip ks xs)).
  assert (Hp : Forall (λ q, key q.2 = Ok q.1) p).
  { unfold p. rewrite sort_keyed_perm.
    apply map_results_Ok in Hks.
    induction Hks; simpl; by constructor. }
  assert (Hkeys : map_results key (map snd p) = Ok (map fst p)).
  { apply map_results_Forall2. clear -Hp.
    induction Hp; simpl; by constructor. }
  rewrite Hkeys. simpl. f_equal.
  change (zip (map fst p) (map snd p)) with (zip (p.*1) (p.*2)).
  rewrite zip_fst_snd, sort_keyed_id; [done|].
  apply sort_keyed_sorted.
Qed.

End Sort.

(** C4: sorting the deck with [spades_high] as key returns a list that
    the same sort leaves as it is, and in which the cards of every rank
    come in the order clubs, diamonds, hearts, spades. *)
Theorem sorted_deck (fuel : nat) :
  (52 < fuel)%nat →
  ∃ s : list Card,
    deck_sorted fuel spades_high FrenchDeck.__init__ = Some (Ok s) ∧
    Py.sorted spades_high s = Ok s ∧
    (∀ r : string,
        r ∈ FrenchDeck.ranks →
        suit <$> filter (λ c, rank c = r) s
        = ["clubs"; "diamonds"; "hearts"; "spades"]) ∧
    s = flat_map (λ r, map (mkCard r) ["clubs"; "diamonds"; "hearts"; "spades"])
          FrenchDeck.ranks.
Proof.
  intros Hfuel. unfold deck_sorted.
  rewrite deck_iter_cards by (by rewrite cards_length).
  destruct (Py.sorted spades_high (_cards FrenchDeck.__init__)) as [s|] eqn:Hs;
    [|by vm_compute in Hs].
  exists s. split; [done|]. split; [by eapply sorted_idempotent|].
  assert (Heq : s = flat_map (λ r, map (mkCard r)
                     ["clubs"; "diamonds"; "hearts"; "spades"]) FrenchDeck.ranks).
  { vm_compute in Hs. injection Hs as <-. by vm_compute. }
  split; [|done].
  intros r Hr. rewrite Heq. clear Hs Heq.
  revert r Hr. apply Forall_forall.
  apply (bool_decide_unpack _). by vm_compute.
Qed.

Lemma sorted_deck_witness :
  ∃ s : list Card,
    deck_sorted 53 spades_high FrenchDeck.__init__ = Some (Ok s) ∧
    Py.sorted spades_high s = Ok s ∧
    (∀ r : string,
        r ∈ FrenchDeck.ranks →
        suit <$> filter (λ c, rank c = r) s
        = ["clubs"; "diamonds"; "hearts"; "spades"]) ∧
    s = flat_map (λ r, map (mkCard r) ["clubs"; "diamonds"; "hearts"; "spades"])
          FrenchDeck.ranks.
Proof. apply (sorted_deck 53). lia. Defined.

(** * Further properties of the code *)

(** ** Integer positions *)

Section Positions.
Context {A : Type}.
Implicit Types (l : list A) (i : Z).

Lemma item_at_Ok l i (x : A) :
  Py.item_at l i = Ok x →
  - Py.len l ≤ i < Py.len l ∧
  l !! Z.to_nat (if i <? 0 then i + Py.len l else i) = Some x.
Proof.
  unfold Py.item_at. cbv zeta.
  set (j := if i <? 0 then i + Py.len l else i).
  assert (Hj : j = if i <? 0 then i + Py.len l else i) by done.
  destruct (Z.ltb_spec j 0) as [|Hj0]; [done|].
  destruct (Z.leb_spec (Py.len l) j) as [|Hjn]; simpl; [done|].
  destruct (l !! Z.to_nat j) as [x'|] eqn:Hx; [|done].
  intros [= ->]. split; [|done].
  destruct (Z.ltb_spec i 0); lia.
Qed.

Lemma item_at_in_range l i :
  - Py.len l ≤ i < Py.len l → ∃ x, Py.item_at l i = Ok x.
Proof.
  intros Hi. unfold Py.item_at. cbv zeta.
  set (j := if i <? 0 then i + Py.len l else i).
  assert (Hj : 0 ≤ j < Py.len l).
  { unfold j. destruct (Z.ltb_spec i 0); lia. }
  rewrite (proj2 (Z.ltb_ge j 0)) by lia.
  rewrite (proj2 (Z.leb_gt (Py.len l) j)) by lia. simpl.
  destruct (lookup_lt_is_Some_2 l (Z.to_nat j)) as [x Hx].
  { unfold Py.len in Hj. lia. }
  rewrite Hx. by exists x.
Qed.

Lemma item_at_negative l i :
  - Py.len l ≤ i < 0 → Py.item_at l i = Py.item_at l (i + Py.len l).
Proof.
  intros Hi. unfold Py.item_at. cbv zeta.
  rewrite (proj2 (Z.ltb_lt i 0)) by lia. cbv iota.
  rewrite !(proj2 (Z.ltb_ge (i + Py.len l) 0)) by lia. reflexivity.
Qed.

End Positions.

(** X1: [deck[i]] returns a card exactly when [-len(deck) <= i <
    len(deck)], and the card it returns is one of the deck's. *)
Theorem getitem_index_range (self : FrenchDeck) (i : Z) :
  ((∃ c : Card, FrenchDeck.__getitem__ self (Py.Index i) = Ok c) ↔
   - FrenchDeck.__len__ self ≤ i < FrenchDeck.__len__ self) ∧
  (∀ c : Card,
      FrenchDeck.__getitem__ self (Py.Index i) = Ok c → c ∈ _cards self).
Proof.
  split; [split|].
  - intros [c Hc]. by apply item_at_Ok in Hc as [? _].
  - apply item_at_in_range.
  - intros c Hc. apply item_at_Ok in Hc as [_ Hc].
    by eapply list_elem_of_lookup_2.
Qed.

(** X2: a negative position counts from the end: for [-len(deck) <= i
    < 0], [deck[i]] is [deck[i + len(deck)]]. *)
Theorem getitem_negative (self : FrenchDeck) (i : Z) :
  - FrenchDeck.__len__ self ≤ i < 0 →
  FrenchDeck.__getitem__ self (Py.Index i)
  = FrenchDeck.__getitem__ self (Py.Index (i + FrenchDeck.__len__ self)).
Proof. apply item_at_negative. Qed.

Lemma getitem_negative_witness :
  FrenchDeck.__getitem__ FrenchDeck.__init__ (Py.Index (-3))
  = FrenchDeck.__getitem__ FrenchDeck.__init__
      (Py.Index (-3 + FrenchDeck.__len__ FrenchDeck.__init__)).
Proof. apply (getitem_negative FrenchDeck.__init__ (-3)). 
  vm_compute. split; [discriminate | reflexivity].
Defined.

(** ** Slices *)

Section Slices.
Context {A : Type}.
Implicit Types (l L : list A) (s : Py.slice).

Lemma omap_seq_lookup L (f : nat → option A) (j : nat) :
  (∀ k : nat, (k < length L)%nat → f (j + k)%nat = L !! k) →
  omap f (seq j (length L)) = L.
Proof.
  revert j. induction L as [|x L IH]; intros j Hf; [done|].
  simpl. rewrite <- (Nat.add_0_r j) at 1. rewrite (Hf 0%nat) by (simpl; lia).
  simpl. f_equal. apply IH. intros k Hk.
  replace (S j + k)%nat with (j + S k)%nat by lia.
  apply (Hf (S k)). simpl. lia.
Qed.

Lemma length_omap_le {B : Type} (f : B → option A) (xs : list B) :
  (length (omap f xs) ≤ length xs)%nat.
Proof.
  induction xs as [|x xs IH]; simpl; [done|].
  unfold omap in IH. destruct (f x); simpl; lia.
Qed.

(** What a slice is, from where its positions are. *)
Lemma slice_of_positions l s (a b st : Z) L :
  Py.slice_indices (Py.len l) s = Ok (a, b, st) →
  Z.to_nat (Py.slice_length a b st) = length L →
  (∀ k : nat, (k < length L)%nat →
     l !! Z.to_nat (a + Z.of_nat k * st) = L !! k) →
  Py.slice_of l s = Ok L.
Proof.
  intros Hs Hlen HL. unfold Py.slice_of. rewrite Hs. simpl.
  rewrite Hlen. f_equal. by apply omap_seq_lookup.
Qed.

Lemma slice_plain l (a b : option nat) :
  Py.slice_of l (Py.Slice_ (Z.of_nat <$> a) (Z.of_nat <$> b) None)
  = Ok (take (default (length l) b - default 0%nat a) (drop (default 0%nat a) l)).
Proof.
  set (an := default 0%nat a). set (bn := default (length l) b).
  set (a' := Z.min (Z.of_nat an) (Py.len l)).
  set (b' := Z.min (Z.of_nat bn) (Py.len l)).
  apply (slice_of_positions _ _ a' b' 1).
  - unfold Py.slice_indices, Py.clip. simpl. do 3 f_equal.
    + unfold a', an. destruct a as [a|]; simpl.
      * by rewrite (proj2 (Z.ltb_ge (Z.of_nat a) 0)) by lia.
      * unfold Py.len. lia.
    + unfold b', bn. destruct b as [b|]; simpl.
      * by rewrite (proj2 (Z.ltb_ge (Z.of_nat b) 0)) by lia.
      * unfold Py.len. lia.
  - rewrite length_take, length_drop. unfold Py.slice_length. simpl.
    unfold a', b', Py.len.
    destruct (Z.ltb_spec (Z.of_nat an `min` Z.of_nat (length l))
                (Z.of_nat bn `min` Z.of_nat (length l))); [|lia].
    rewrite Z.div_1_r. lia.
  - intros k Hk. rewrite length_take, length_drop in Hk.
    rewrite lookup_take_lt, lookup_drop by lia. f_equal.
    unfold a', Py.len. lia.
Qed.

Lemma slice_reversed l :
  Py.slice_of l (Py.Slice_ None None (Some (-1))) = Ok (reverse l).
Proof.
  apply (slice_of_positions _ _ (Py.len l - 1) (-1) (-1)).
  - done.
  - rewrite length_reverse. unfold Py.slice_length, Py.len. simpl.
    destruct (Z.ltb_spec (-1) (Z.of_nat (length l) - 1)); [|lia].
    change (- -1) with 1. rewrite Z.div_1_r. lia.
  - intros k Hk. rewrite length_reverse in Hk.
    rewrite reverse_lookup by done. f_equal. unfold Py.len. lia.
Qed.

Lemma slice_indices_bounds (n : Z) s (a b st : Z) :
  0 ≤ n → Py.slice_indices n s = Ok (a, b, st) →
  (st < 0 ∧ -1 ≤ a ≤ n - 1 ∧ -1 ≤ b ≤ n - 1) ∨
  (0 < st ∧ 0 ≤ a ≤ n ∧ 0 ≤ b ≤ n).
Proof.
  intros Hn. unfold Py.slice_indices, Py.clip. cbv zeta.
  destruct (Z.eqb_spec (default 1 (Py.step s)) 0) as [|Hst]; [done|].
  intros [= <- <- <-].
  destruct (Z.ltb_spec (default 1 (Py.step s)) 0); [left | right];
    (split; [lia|]);
    split;
    repeat match goal with
           | |- context [match ?o with Some _ => _ | None => _ end] => destruct o
           | |- context [?x <? 0] => destruct (Z.ltb_spec x 0)
           end; lia.
Qed.

Lemma slice_length_le (n a b st : Z) :
  0 ≤ n →
  (st < 0 ∧ -1 ≤ a ≤ n - 1 ∧ -1 ≤ b ≤ n - 1) ∨
  (0 < st ∧ 0 ≤ a ≤ n ∧ 0 ≤ b ≤ n) →
  Py.slice_length a b st ≤ n.
Proof.
  intros Hn. unfold Py.slice_length.
  intros [(Hst & Ha & Hb)|(Hst & Ha & Hb)].
  - rewrite (proj2 (Z.ltb_lt st 0)) by lia.
    destruct (Z.ltb_spec b a); [|lia].
    assert ((a - b - 1) / - st ≤ a - b - 1); [|lia].
    apply Z.div_le_upper_bound; nia.
  - rewrite (proj2 (Z.ltb_ge st 0)) by lia.
    destruct (Z.ltb_spec a b); [|lia].
    assert ((b - a - 1) / st ≤ b - a - 1); [|lia].
    apply Z.div_le_upper_bound; nia.
Qed.

Lemma slice_of_Ok l s L :
  Py.slice_of l s = Ok L →
  (∀ x : A, x ∈ L → x ∈ l) ∧ (length L ≤ length l)%nat.
Proof.
  unfold Py.slice_of.
  destruct (Py.slice_indices (Py.len l) s) as [[[a b] st]|] eqn:Hs; [|done].
  simpl. intros [= <-]. split.
  - intros x Hx. apply list_elem_of_omap in Hx as (k & _ & Hk).
    by eapply list_elem_of_lookup_2.
  - etransitivity; [apply length_omap_le|]. rewrite length_seq.
    assert (Hn : 0 ≤ Py.len l) by (unfold Py.len; lia).
    pose proof (slice_length_le _ _ _ _ Hn (slice_indices_bounds _ _ _ _ _ Hn Hs)).
    unfold Py.len in *. lia.
Qed.

End Slices.

(** X3: a slice with no step and bounds that are not negative is the
    stretch of the cards between the bounds: [deck[a:b]] drops the first
    [a] cards and takes the next [b - a]; a bound left out is 0 at the
    start and the length at the stop, so [deck[:]] is all the cards; a
    bound beyond the end is no error. *)
Theorem getitem_plain_slice (self : FrenchDeck) (a b : option nat) :
  FrenchDeck.__getitem__ self
    (Py.Slice (Py.Slice_ (Z.of_nat <$> a) (Z.of_nat <$> b) None))
  = Ok (take (default (length (_cards self)) b - default 0%nat a)
          (drop (default 0%nat a) (_cards self))) ∧
  FrenchDeck.__getitem__ self (Py.Slice (Py.Slice_ None None None))
  = Ok (_cards self).
Proof.
  split; [apply slice_plain|].
  etransitivity; [apply (slice_plain (_cards self) None None)|].
  simpl. by rewrite Nat.sub_0_r, firstn_all.
Qed.

(** X4: [deck[::-1]] is the cards in reverse order. *)
Theorem getitem_reversed (self : FrenchDeck) :
  FrenchDeck.__getitem__ self (Py.Slice (Py.Slice_ None None (Some (-1))))
  = Ok (reverse (_cards self)).
Proof. apply slice_reversed. Qed.

(** X5: whatever the slice, the list [deck[start:stop:step]] returns
    holds only cards of the deck and is no longer than the deck. *)
Theorem getitem_slice_within (self : FrenchDeck) (s : Py.slice) (l : list Card) :
  FrenchDeck.__getitem__ self (Py.Slice s) = Ok l →
  (∀ c : Card, c ∈ l → c ∈ _cards self) ∧
  Py.len l ≤ FrenchDeck.__len__ self.
Proof.
  intros Hl. apply slice_of_Ok in Hl as [Hin Hlen].
  split; [done|]. unfold FrenchDeck.__len__, Py.len. lia.
Qed.

Lemma getitem_slice_within_witness :
  (∀ c : Card,
      c ∈ [mkCard "A" "hearts"; mkCard "7" "clubs"; mkCard "K" "spades"] →
      c ∈ _cards FrenchDeck.__init__) ∧
  Py.len [mkCard "A" "hearts"; mkCard "7" "clubs"; mkCard "K" "spades"]
  ≤ FrenchDeck.__len__ FrenchDeck.__init__.
Proof.
  apply (getitem_slice_within FrenchDeck.__init__
           (Py.Slice_ None None (Some (-20)))).
  reflexivity.
Defined.

(** ** Iteration *)

Lemma map_results_positions {A : Type} (l : list A) :
  map_results (Py.item_at l) (Py.range 0 (Py.len l)) = Ok l.
Proof.
  apply map_results_Forall2. unfold Py.range, Py.len.
  rewrite Z.sub_0_r, Nat2Z.id.
  apply Forall2_same_length_lookup_2.
  - by rewrite length_map, length_seq.
  - intros i z x Hz Hx.
    change (map (λ k, 0 + Z.of_nat k) (seq 0 (length l)))
      with ((λ k, 0 + Z.of_nat k) <$> seq 0 (length l)) in Hz.
    rewrite list_lookup_fmap in Hz.
    destruct (seq 0 (length l) !! i) as [k|] eqn:Hk; [|done].
    apply lookup_seq in Hk as [-> _]. simpl in Hz. injection Hz as <-.
    by apply (subscript_index_ok l i x).
Qed.

(** X6: [for card in deck] and [list(deck)] visit [deck[0]],
    [deck[1]], ... up to the last card, in that order, and stop there:
    with more fuel than cards the iteration returns the cards, which
    are the items at the positions [range(0, len(deck))]. *)
Theorem deck_iteration (self : FrenchDeck) (fuel : nat) :
  (length (_cards self) < fuel)%nat →
  deck_iter fuel self = Some (Ok (_cards self)) ∧
  map_results (deck_item self) (Py.range 0 (FrenchDeck.__len__ self))
  = Ok (_cards self).
Proof.
  intros Hfuel. split; [by apply deck_iter_cards|].
  apply (map_results_positions (_cards self)).
Qed.

Lemma deck_iteration_witness :
  deck_iter 53 FrenchDeck.__init__ = Some (Ok (_cards FrenchDeck.__init__)) ∧
  map_results (deck_item FrenchDeck.__init__)
    (Py.range 0 (FrenchDeck.__len__ FrenchDeck.__init__))
  = Ok (_cards FrenchDeck.__init__).
Proof.
  apply (deck_iteration FrenchDeck.__init__ 53).
  rewrite cards_length. lia.
Defined.

(** ** The sort key as a numbering of the deck *)

Lemma position_in_Some (l : list string) (x : string) (i : Z) :
  Spec.position_in l x = Some i →
  0 ≤ i < Z.of_nat (length l) ∧ l !! Z.to_nat i = Some x.
Proof.
  revert i. induction l as [|y l IH]; intros i; simpl; [done|].
  case_decide as Hy.
  - intros [= <-]. subst. split; [lia | done].
  - destruct (Spec.position_in l x) as [j|]; simpl; [|done].
    intros [= <-]. destruct (IH j eq_refl) as [Hj Hx]. split; [lia|].
    rewrite Z2Nat.inj_succ by lia. done.
Qed.

Lemma position_in_lookup (l : list string) (x : string) (n : nat) :
  NoDup l → l !! n = Some x → Spec.position_in l x = Some (Z.of_nat n).
Proof.
  intros Hl Hx.
  destruct (Spec.position_in l x) as [i|] eqn:Hi.
  - apply position_in_Some in Hi as [Hi Hx'].
    rewrite (NoDup_lookup l n (Z.to_nat i) x Hl Hx Hx'). f_equal. lia.
  - apply position_in_None in Hi. destruct Hi.
    by eapply list_elem_of_lookup_2.
Qed.

Lemma suitWeight_Some (s : string) (w : Z) :
  Spec.suitWeight s = Some w → 0 ≤ w < 4 ∧ s ∈ FrenchDeck.suits.
Proof.
  rewrite suits_eq. unfold Spec.suitWeight.
  repeat case_decide; intros [= <-]; subst;
    (split; [lia | apply (bool_decide_unpack _); by vm_compute]).
Qed.

Lemma suitWeight_inj (s1 s2 : string) (w : Z) :
  Spec.suitWeight s1 = Some w → Spec.suitWeight s2 = Some w → s1 = s2.
Proof.
  unfold Spec.suitWeight. repeat case_decide; intros; simplify_eq; done.
Qed.

Lemma suitWeight_elem_of (s : string) :
  s ∈ FrenchDeck.suits → is_Some (Spec.suitWeight s).
Proof.
  rewrite suits_eq. rewrite !elem_of_cons, elem_of_nil.
  intros [->|[->|[->|[->|[]]]]]; by eexists.
Qed.

Lemma spades_high_Ok (card : Card) (v : Z) :
  spades_high card = Ok v →
  ∃ i w : Z,
    Spec.rankIndex (rank card) = Some i ∧
    Spec.suitWeight (suit card) = Some w ∧
    v = i * 4 + w ∧ 0 ≤ i < 13 ∧ 0 ≤ w < 4.
Proof.
  rewrite spades_high_unfold.
  destruct (Spec.rankIndex (rank card)) as [i|] eqn:Hi; [|done].
  destruct (Spec.suitWeight (suit card)) as [w|] eqn:Hw; [|done].
  intros [= <-]. exists i, w.
  apply position_in_Some in Hi as [Hi _].
  apply suitWeight_Some in Hw as [Hw _]. simpl in Hi. done.
Qed.

Lemma spades_high_Ok_iff (card : Card) :
  (∃ v : Z, spades_high card = Ok v) ↔ card ∈ _cards FrenchDeck.__init__.
Proof.
  destruct card as [r s]. rewrite elem_of_cards, ranks_eq. split.
  - intros [v Hv]. apply spades_high_Ok in Hv as (i & w & Hi & Hw & _).
    simpl in *. split.
    + apply position_in_Some in Hi as [_ Hi]. by eapply list_elem_of_lookup_2.
    + by apply suitWeight_Some in Hw as [_ Hw].
  - intros [Hr Hs]. rewrite spades_high_unfold. simpl.
    destruct (Spec.rankIndex r) as [i|] eqn:Hi.
    + destruct (suitWeight_elem_of s Hs) as [w ->]. by eexists.
    + by apply position_in_None in Hi.
Qed.

(** X7: [spades_high] returns a value exactly on the cards of the
    deck; on any other card it raises [ValueError] or [KeyError], never
    anything else. *)
Theorem spades_high_domain (card : Card) :
  ((∃ v : Z, spades_high card = Ok v) ↔ card ∈ _cards FrenchDeck.__init__) ∧
  (card ∉ _cards FrenchDeck.__init__ →
   spades_high card = Raise ValueError ∨ spades_high card = Raise KeyError).
Proof.
  split; [apply spades_high_Ok_iff|].
  intros Hc. rewrite <- spades_high_Ok_iff in Hc.
  rewrite spades_high_unfold in *.
  destruct (Spec.rankIndex (rank card)); [|by left].
  destruct (Spec.suitWeight (suit card)); [|by right].
  destruct Hc. by eexists.
Qed.

Lemma spades_high_inj (card1 card2 : Card) (v : Z) :
  spades_high card1 = Ok v → spades_high card2 = Ok v → card1 = card2.
Proof.
  intros H1 H2.
  apply spades_high_Ok in H1 as (i1 & w1 & Hi1 & Hw1 & -> & Hb1 & Hc1).
  apply spades_high_Ok in H2 as (i2 & w2 & Hi2 & Hw2 & Hv & Hb2 & Hc2).
  assert (i1 = i2) as -> by lia. assert (w1 = w2) as -> by lia.
  destruct card1 as [r1 s1], card2 as [r2 s2]. simpl in *. f_equal.
  - apply position_in_Some in Hi1 as [_ Hi1].
    apply position_in_Some in Hi2 as [_ Hi2]. congruence.
  - by eapply suitWeight_inj.
Qed.

(** X8: no two cards share a key: when [spades_high] returns the same
    value on two cards, they are the same card. *)
Theorem spades_high_injective (card1 card2 : Card) (v : Z) :
  spades_high card1 = Ok v → spades_high card2 = Ok v → card1 = card2.
Proof. apply spades_high_inj. Qed.

Lemma spades_high_injective_witness :
  mkCard "10" "hearts" = mkCard "10" "hearts".
Proof.
  apply (spades_high_injective (mkCard "10" "hearts") (mkCard "10" "hearts") 34);
    reflexivity.
Defined.

(** X9: the keys number the deck from 0 to 51: every value
    [spades_high] returns lies in that range, and every number of the
    range is the key of a card of the deck. *)
Theorem spades_high_range :
  (∀ (card : Card) (v : Z), spades_high card = Ok v → 0 ≤ v ≤ 51) ∧
  (∀ v : Z, 0 ≤ v ≤ 51 →
     ∃ card : Card, card ∈ _cards FrenchDeck.__init__ ∧ spades_high card = Ok v).
Proof.
  split.
  - intros card v Hv. apply spades_high_Ok in Hv as (i & w & _ & _ & -> & ? & ?).
    lia.
  - intros v Hv.
    destruct (lookup_lt_is_Some_2 Spec.rank_domain (Z.to_nat (v / 4))) as [r Hr].
    { simpl. assert (0 ≤ v / 4 < 13); [|lia].
      split; [apply Z.div_pos; lia | apply Z.div_lt_upper_bound; lia]. }
    assert (Hs : ∃ s, s ∈ FrenchDeck.suits ∧ Spec.suitWeight s = Some (v `mod` 4)).
    { pose proof (Z.mod_pos_bound v 4 ltac:(lia)) as Hm.
      assert (v `mod` 4 = 0 ∨ v `mod` 4 = 1 ∨ v `mod` 4 = 2 ∨ v `mod` 4 = 3)
        as [-> | [-> | [-> | ->]]] by lia;
        [exists "clubs" | exists "diamonds" | exists "hearts" | exists "spades"];
        (split; [apply (bool_decide_unpack _); by vm_compute | done]). }
    destruct Hs as (s & Hs & Hw). exists (mkCard r s). split.
    + apply elem_of_cards. rewrite ranks_eq. split; [|done].
      by eapply list_elem_of_lookup_2.
    + rewrite spades_high_unfold. simpl. unfold Spec.rankIndex.
      assert (Hnd : NoDup Spec.rank_domain).
      { apply (bool_decide_unpack _). by vm_compute. }
      rewrite (position_in_lookup _ _ _ Hnd Hr).
      rewrite Hw. f_equal. rewrite Z2Nat.id by (apply Z.div_pos; lia).
      pose proof (Z.div_mod v 4 ltac:(lia)). lia.
Qed.

Lemma spades_high_range_witness :
  0 ≤ 34 ≤ 51 ∧
  ∃ card : Card, card ∈ _cards FrenchDeck.__init__ ∧ spades_high card = Ok 34.
Proof.
  assert (H : 0 ≤ 34 ≤ 51) by lia.
  split; [exact H|]. exact (proj2 spades_high_range 34 H).
Defined.

(** X10: the key can be read back: when [spades_high] returns [v], the
    card's rank is [FrenchDeck.ranks[v // 4]] and its suit is the one
    [suit_values] maps to [v % 4]. *)
Theorem spades_high_decode (card : Card) (v : Z) :
  spades_high card = Ok v →
  FrenchDeck.ranks !! Z.to_nat (v / 4) = Some (rank card) ∧
  suit_values !! suit card = Some (v `mod` 4).
Proof.
  intros Hv. apply spades_high_Ok in Hv as (i & w & Hi & Hw & -> & Hb & Hc).
  assert (Hdiv : (i * 4 + w) / 4 = i).
  { symmetry. apply (Z.div_unique_pos _ 4 i w); lia. }
  assert (Hmod : (i * 4 + w) `mod` 4 = w).
  { symmetry. apply (Z.mod_unique_pos _ 4 i w); lia. }
  rewrite Hdiv, Hmod, ranks_eq, suit_values_lookup. split; [|done].
  by apply position_in_Some in Hi as [_ Hi].
Qed.

Lemma spades_high_decode_witness :
  FrenchDeck.ranks !! Z.to_nat (34 / 4) = Some (rank (mkCard "10" "hearts")) ∧
  suit_values !! suit (mkCard "10" "hearts") = Some (34 `mod` 4).
Proof. apply (spades_high_decode (mkCard "10" "hearts") 34). reflexivity. Defined.

(** X11: the rank decides first and the suit breaks ties: a card whose
    rank comes later in [FrenchDeck.ranks] has the greater key whatever
    the suits, and of two cards of one rank the one whose suit weighs
    more in [suit_values] has the greater key. *)
Theorem spades_high_rank_major (card1 card2 : Card) (v1 v2 : Z) :
  spades_high card1 = Ok v1 →
  spades_high card2 = Ok v2 →
  (∀ i1 i2 : Z,
      Py.index FrenchDeck.ranks (rank card1) = Ok i1 →
      Py.index FrenchDeck.ranks (rank card2) = Ok i2 →
      i1 < i2 → v1 < v2) ∧
  (∀ w1 w2 : Z,
      rank card1 = rank card2 →
      suit_values !! suit card1 = Some w1 →
      suit_values !! suit card2 = Some w2 →
      (v1 < v2 ↔ w1 < w2)).
Proof.
  intros H1 H2.
  apply spades_high_Ok in H1 as (i1 & w1 & Hi1 & Hw1 & -> & Hb1 & Hc1).
  apply spades_high_Ok in H2 as (i2 & w2 & Hi2 & Hw2 & -> & Hb2 & Hc2).
  unfold Spec.rankIndex in Hi1, Hi2. split.
  - intros j1 j2. rewrite !index_position_in, ranks_eq, Hi1, Hi2.
    intros [= <-] [= <-]. lia.
  - intros u1 u2 Hr. rewrite !suit_values_lookup, Hw1, Hw2.
    intros [= <-] [= <-]. rewrite Hr in Hi1.
    assert (i1 = i2) by congruence. lia.
Qed.

Lemma spades_high_rank_major_witness :
  (∀ i1 i2 : Z,
      Py.index FrenchDeck.ranks (rank (mkCard "2" "spades")) = Ok i1 →
      Py.index FrenchDeck.ranks (rank (mkCard "3" "clubs")) = Ok i2 →
      i1 < i2 → 3 < 4) ∧
  (∀ w1 w2 : Z,
      rank (mkCard "2" "spades") = rank (mkCard "3" "clubs") →
      suit_values !! suit (mkCard "2" "spades") = Some w1 →
      suit_values !! suit (mkCard "3" "clubs") = Some w2 →
      (3 < 4 ↔ w1 < w2)).
Proof.
  apply (spades_high_rank_major (mkCard "2" "spades") (mkCard "3" "clubs") 3 4);
    reflexivity.
Defined.

(** ** [sorted] with [spades_high] as key *)

Section SortedBy.
Context {A : Type} (key : A → result Z).
Implicit Types (xs s : list A).

Lemma sorted_Ok_perm_keys xs s :
  Py.sorted key xs = Ok s →
  s ≡ₚ xs ∧
  ∃ ks : list Z, map_results key s = Ok ks ∧ StronglySorted Z.le ks.
Proof.
  unfold Py.sorted.
  destruct (map_results key xs) as [ks0|] eqn:Hks; simpl; [|done].
  intros [= <-]. set (p := Py.sort_keyed (zip ks0 xs)).
  apply map_results_Ok in Hks.
  assert (Hp : Forall (λ q, key q.2 = Ok q.1) p).
  { unfold p. rewrite sort_keyed_perm.
    clear p. induction Hks; simpl; by constructor. }
  split.
  - change (map snd p) with (p.*2). unfold p. rewrite sort_keyed_perm.
    rewrite snd_zip; [done|]. apply Forall2_length in Hks. lia.
  - exists (map fst p). split.
    + apply map_results_Forall2. clear -Hp.
      induction Hp; simpl; by constructor.
    + change (map fst p) with (p.*1).
      apply (StronglySorted_fmap fst key_le Z.le); [done|].
      apply sort_keyed_sorted.
Qed.

Lemma map_results_all_Ok xs :
  (∃ ks, map_results key xs = Ok ks) ↔ Forall (λ x, ∃ k, key x = Ok k) xs.
Proof.
  induction xs as [|x xs IH]; simpl.
  - split; [constructor | by eexists].
  - rewrite Forall_cons, <- IH. split.
    + intros [ks Hks]. destruct (key x) as [k|]; simpl in Hks; [|done].
      split; [by eexists|].
      destruct (map_results key xs) as [ks'|]; [by eexists | done].
    + intros [[k ->] [ks ->]]. simpl. by eexists.
Qed.

Lemma sorted_all_Ok xs :
  (∃ s, Py.sorted key xs = Ok s) ↔ Forall (λ x, ∃ k, key x = Ok k) xs.
Proof.
  rewrite <- map_results_all_Ok. unfold Py.sorted. split.
  - intros [s Hs]. destruct (map_results key xs); [by eexists | done].
  - intros [ks ->]. simpl. by eexists.
Qed.

Lemma sorted_first_Raise (pre post : list A) (x : A) (e : exn) :
  Forall (λ x', ∃ k, key x' = Ok k) pre →
  key x = Raise e →
  Py.sorted key (pre ++ x :: post) = Raise e.
Proof.
  intros Hpre Hx. unfold Py.sorted.
  assert (map_results key (pre ++ x :: post) = Raise e) as ->; [|done].
  induction Hpre as [|x' pre [k Hk] _ IH]; simpl.
  - by rewrite Hx.
  - by rewrite Hk, IH.
Qed.

End SortedBy.

(** X12: [sorted(cards, key=spades_high)], when it returns, returns
    the same cards in another order, none lost and none added, with
    their keys in ascending order. *)
Theorem sorted_cards (l s : list Card) :
  Py.sorted spades_high l = Ok s →
  s ≡ₚ l ∧
  ∃ ks : list Z, map_results spades_high s = Ok ks ∧ StronglySorted Z.le ks.
Proof. apply sorted_Ok_perm_keys. Qed.

Lemma sorted_cards_witness :
  [mkCard "2" "hearts"; mkCard "3" "clubs"; mkCard "3" "spades"]
  ≡ₚ [mkCard "3" "spades"; mkCard "2" "hearts"; mkCard "3" "clubs"] ∧
  ∃ ks : list Z,
    map_results spades_high
      [mkCard "2" "hearts"; mkCard "3" "clubs"; mkCard "3" "spades"] = Ok ks ∧
    StronglySorted Z.le ks.
Proof.
  apply (sorted_cards [mkCard "3" "spades"; mkCard "2" "hearts"; mkCard "3" "clubs"]).
  reflexivity.
Defined.

(** X13: [sorted(cards, key=spades_high)] returns exactly when every
    card is one of the deck; otherwise it raises what [spades_high]
    raises on the first card that is not. *)
Theorem sorted_cards_errors :
  (∀ l : list Card,
      (∃ s, Py.sorted spades_high l = Ok s) ↔
      Forall (λ c, c ∈ _cards FrenchDeck.__init__) l) ∧
  (∀ (pre post : list Card) (card : Card) (e : exn),
      Forall (λ c, c ∈ _cards FrenchDeck.__init__) pre →
      spades_high card = Raise e →
      Py.sorted spades_high (pre ++ card :: post) = Raise e).
Proof.
  split.
  - intros l. rewrite sorted_all_Ok.
    apply Forall_iff. intros c. apply spades_high_Ok_iff.
  - intros pre post card e Hpre. apply sorted_first_Raise.
    eapply Forall_impl; [exact Hpre|]. intros c. apply spades_high_Ok_iff.
Qed.

Lemma sorted_cards_errors_witness :
  Py.sorted spades_high
    ([mkCard "3" "spades"] ++ mkCard "Q" "beasts" :: [mkCard "1" "clubs"])
  = Raise KeyError.
Proof.
  apply (proj2 sorted_cards_errors [mkCard "3" "spades"] [mkCard "1" "clubs"]
           (mkCard "Q" "beasts") KeyError); [|reflexivity].
  constructor; [|constructor].
  apply (bool_decide_unpack _). vm_compute. exact I.
Defined.

(** X14: sorting a slice of the fresh deck with [spades_high] never
    fails, and returns the cards of the slice in another order. *)
Theorem sorted_slice (s : Py.slice) (l : list Card) :
  FrenchDeck.__getitem__ FrenchDeck.__init__ (Py.Slice s) = Ok l →
  ∃ r : list Card, Py.sorted spades_high l = Ok r ∧ r ≡ₚ l.
Proof.
  intros Hl. apply slice_of_Ok in Hl as [Hin _].
  destruct (proj2 (sorted_all_Ok spades_high l)) as [r Hr].
  { apply Forall_forall. intros c Hc. apply spades_high_Ok_iff. by apply Hin. }
  exists r. split; [done|]. by apply sorted_Ok_perm_keys in Hr as [Hr _].
Qed.

Lemma sorted_slice_witness :
  ∃ r : list Card,
    Py.sorted spades_high
      [mkCard "A" "hearts"; mkCard "7" "clubs"; mkCard "K" "spades"] = Ok r ∧
    r ≡ₚ [mkCard "A" "hearts"; mkCard "7" "clubs"; mkCard "K" "spades"].
Proof.
  apply (sorted_slice (Py.Slice_ None None (Some (-20)))). reflexivity.
Defined.

(** ** [choice] *)

(** X15: whatever position below [len(deck)] the generator draws,
    [choice(deck)] does not fail and returns a card of the deck, the one
    at the drawn position. *)
Theorem deck_choice_spec (randbelow : Z → Z) (self : FrenchDeck) :
  0 ≤ randbelow (FrenchDeck.__len__ self) < FrenchDeck.__len__ self →
  ∃ card : Card,
    deck_choice randbelow self = Ok card ∧
    card ∈ _cards self ∧
    FrenchDeck.__getitem__ self (Py.Index (randbelow (FrenchDeck.__len__ self)))
    = Ok card.
Proof.
  intros Hr. unfold deck_choice, Py.choice.
  rewrite (proj2 (Z.eqb_neq (FrenchDeck.__len__ self) 0)) by lia.
  destruct (item_at_in_range (_cards self) (randbelow (FrenchDeck.__len__ self)))
    as [c Hc].
  { unfold FrenchDeck.__len__ in *. lia. }
  exists c. split; [done|]. split; [|done].
  apply item_at_Ok in Hc as [_ Hc]. by eapply list_elem_of_lookup_2.
Qed.

Lemma deck_choice_spec_witness :
  ∃ card : Card,
    deck_choice (λ n, n - 1) FrenchDeck.__init__ = Ok card ∧
    card ∈ _cards FrenchDeck.__init__ ∧
    FrenchDeck.__getitem__ FrenchDeck.__init__
      (Py.Index ((λ n, n - 1) (FrenchDeck.__len__ FrenchDeck.__init__)))
    = Ok card.
Proof.
  apply (deck_choice_spec (λ n, n - 1) FrenchDeck.__init__).
  vm_compute. split; [discriminate | reflexivity].
Defined.

(** ** [Vector] *)

(** X16: [+] on vectors is commutative and associative, and
    [Vector()], the vector with both components left out, is its
    neutral element. *)
Theorem vector_add_laws (u v w : Vector.Vector) :
  Vector.__add__ u v = Vector.__add__ v u ∧
  Vector.__add__ (Vector.__add__ u v) w = Vector.__add__ u (Vector.__add__ v w) ∧
  Vector.__add__ v (Vector.__init__ None None) = v ∧
  Vector.__add__ (Vector.__init__ None None) v = v.
Proof.
  destruct u as [ux uy], v as [vx vy], w as [wx wy].
  unfold Vector.__add__, Vector.__init__. simpl.
  repeat apply conj; f_equal; lia.
Qed.

(** X17: [*] by an integer distributes over [+], two scalings are one
    scaling by the product, scaling by 1 changes nothing and scaling by
    0 gives [Vector()]. *)
Theorem vector_mul_laws (u v : Vector.Vector) (a b : Z) :
  Vector.__mul__ (Vector.__add__ u v) a
  = Vector.__add__ (Vector.__mul__ u a) (Vector.__mul__ v a) ∧
  Vector.__mul__ (Vector.__mul__ v a) b = Vector.__mul__ v (a * b) ∧
  Vector.__mul__ v (a + b)
  = Vector.__add__ (Vector.__mul__ v a) (Vector.__mul__ v b) ∧
  Vector.__mul__ v 1 = v ∧
  Vector.__mul__ v 0 = Vector.__init__ None None.
Proof.
  destruct u as [ux uy], v as [vx vy].
  unfold Vector.__mul__, Vector.__add__, Vector.__init__. simpl.
  repeat apply conj; f_equal; lia.
Qed.

Section Repr.
Implicit Types (s r : string) (ch : ascii) (n m : Z).

Lemma str_inj n m : Py.str n = Py.str m → n = m.
Proof.
  unfold Py.str. intros H. apply DecimalZ.to_int_inj.
  assert (Hisi : ∀ z, NilZero.int_of_string (NilZero.string_of_int (Z.to_int z))
                       = Some (Z.to_int z)).
  { intros z. apply NilZero.isi; destruct z; simpl; try discriminate;
      intros [= Hp]; by apply DecimalPos.Unsigned.to_uint_nonnil in Hp. }
  pose proof (Hisi n) as Hn. rewrite H, Hisi in Hn. by injection Hn.
Qed.

Lemma uint_chars (d : Decimal.uint) ch :
  In ch (list_ascii_of_string (NilEmpty.string_of_uint d)) →
  In ch (list_ascii_of_string "0123456789").
Proof.
  induction d as [|d IH|d IH|d IH|d IH|d IH|d IH|d IH|d IH|d IH|d IH];
    [done|..]; intros [<-|H];
    solve [by apply IH | simpl; repeat (first [by left | right])].
Qed.

Lemma str_chars n ch :
  In ch (list_ascii_of_string (Py.str n)) →
  In ch (list_ascii_of_string "-0123456789").
Proof.
  unfold Py.str. destruct (Z.to_int n) as [d|d]; simpl.
  - intros H. right.
    apply (uint_chars (match d with Decimal.Nil => Decimal.D0 Decimal.Nil | _ => d end)).
    by destruct d.
  - intros [<-|H]; [by left|]. right.
    apply (uint_chars (match d with Decimal.Nil => Decimal.D0 Decimal.Nil | _ => d end)).
    by destruct d.
Qed.

(** Two strings that agree up to and beyond the first [ch] agree on
    both sides of it. *)
Lemma append_sep_inj ch s1 s2 r1 r2 :
  ¬ In ch (list_ascii_of_string s1) →
  ¬ In ch (list_ascii_of_string s2) →
  (s1 ++ String ch r1)%string = (s2 ++ String ch r2)%string →
  s1 = s2 ∧ r1 = r2.
Proof.
  revert s2. induction s1 as [|c1 s1 IH]; intros [|c2 s2]; simpl;
    intros H1 H2 Heq.
  - by injection Heq as ->.
  - injection Heq as Hc _. destruct H2. by left.
  - injection Heq as Hc _. destruct H1. by left.
  - injection Heq as -> Hs.
    destruct (IH s2) as [-> ->]; [tauto | tauto | done | done].
Qed.

End Repr.

(** X18: [repr] tells vectors apart: two vectors with the same text
    [Vector(x, y)] have the same components. *)
Theorem vector_repr_injective (u v : Vector.Vector) :
  Vector.__repr__ u = Vector.__repr__ v → u = v.
Proof.
  destruct u as [ux uy], v as [vx vy].
  unfold Vector.__repr__, Py.repr. simpl Vector.x. simpl Vector.y.
  assert (Hno : ∀ n ch, In ch [","; ")"]%char →
                  ¬ In ch (list_ascii_of_string (Py.str n))).
  { intros n ch Hch Hin. apply str_chars in Hin. simpl in *.
    repeat (destruct Hch as [<-|Hch]; [intuition discriminate|]). done. }
  remember (Py.str ux) as sx1. remember (Py.str vx) as sx2.
  remember (Py.str uy) as sy1. remember (Py.str vy) as sy2.
  simpl. intros [= H].
  apply (append_sep_inj ","%char) in H as [Hx [= Hy]];
    [|subst; apply Hno; simpl; tauto..].
  apply (append_sep_inj ")"%char) in Hy as [Hy _];
    [|subst; apply Hno; simpl; tauto..].
  subst. apply str_inj in Hx, Hy. by subst.
Qed.

Lemma vector_repr_injective_witness :
  Vector.mk 2 4 = Vector.mk 2 4.
Proof. apply (vector_repr_injective (Vector.mk 2 4) (Vector.mk 2 4)). reflexivity. Defined.

(** ** Strides *)

Lemma omap_seq_total {A : Type} (f : nat → option A) (m : nat) :
  (∀ k : nat, (k < m)%nat → is_Some (f k)) →
  length (omap f (seq 0 m)) = m ∧
  ∀ k : nat, (k < m)%nat → omap f (seq 0 m) !! k = f k.
Proof.
  induction m as [|m IH]; intros Hf; [split; [done | lia]|].
  destruct IH as [Hlen Hlook]; [intros k Hk; apply Hf; lia|].
  destruct (Hf m) as [x Hx]; [lia|].
  rewrite seq_S, omap_app. simpl. rewrite Hx. split.
  - rewrite length_app, Hlen. simpl. lia.
  - intros k Hk. destruct (decide (k = m)) as [->|Hne].
    + rewrite Hx. by apply list_lookup_middle.
    + rewrite lookup_app_l by lia. apply Hlook. lia.
Qed.

Lemma slice_stride {A : Type} (l : list A) (st : nat) :
  (0 < st)%nat →
  ∃ L : list A,
    Py.slice_of l (Py.Slice_ None None (Some (Z.of_nat st))) = Ok L ∧
    ∀ k : nat, L !! k = l !! (k * st)%nat.
Proof.
  intros Hst. unfold Py.slice_of, Py.slice_indices. simpl.
  rewrite (proj2 (Z.eqb_neq (Z.of_nat st) 0)) by lia.
  rewrite (proj2 (Z.ltb_ge (Z.of_nat st) 0)) by lia. simpl.
  eexists. split; [reflexivity|].
  set (n := Py.len l). set (m := Z.to_nat (Py.slice_length 0 n (Z.of_nat st))).
  assert (Hn : n = Z.of_nat (length l)) by done.
  assert (Hin : ∀ k : nat, (k < m)%nat → (k * st < length l)%nat).
  { intros k Hk. unfold m, Py.slice_length in Hk.
    rewrite (proj2 (Z.ltb_ge (Z.of_nat st) 0)) in Hk by lia.
    destruct (Z.ltb_spec 0 n); [|lia].
    pose proof (Z.mul_div_le (n - 0 - 1) (Z.of_nat st) ltac:(lia)).
    assert (Z.of_nat k ≤ (n - 0 - 1) / Z.of_nat st) by lia. nia. }
  assert (Hout : ∀ k : nat, (m ≤ k)%nat → (length l ≤ k * st)%nat).
  { intros k Hk. unfold m, Py.slice_length in Hk.
    rewrite (proj2 (Z.ltb_ge (Z.of_nat st) 0)) in Hk by lia.
    destruct (Z.ltb_spec 0 n); [|lia].
    pose proof (Z.mul_succ_div_gt (n - 0 - 1) (Z.of_nat st) ltac:(lia)).
    assert (0 ≤ (n - 0 - 1) / Z.of_nat st) by (apply Z.div_pos; lia).
    assert ((n - 0 - 1) / Z.of_nat st + 1 ≤ Z.of_nat k) by lia. nia. }
  destruct (omap_seq_total (λ k, l !! Z.to_nat (0 + Z.of_nat k * Z.of_nat st)) m)
    as [Hlen Hlook].
  { intros k Hk. apply lookup_lt_is_Some_2. specialize (Hin k Hk). lia. }
  intros k. destruct (decide (k < m)%nat) as [Hk|Hk].
  - rewrite Hlook by done. f_equal. lia.
  - rewrite (lookup_ge_None_2 _ k) by lia.
    symmetry. apply lookup_ge_None_2. apply Hout. lia.
Qed.

(** X19: [deck[::step]] with a positive step is the cards at the
    positions 0, step, 2 step, ...: its k-th card is the deck's card at
    k step, and it ends where the deck does. *)
Theorem getitem_stride (self : FrenchDeck) (st : nat) :
  (0 < st)%nat →
  ∃ l : list Card,
    FrenchDeck.__getitem__ self (Py.Slice (Py.Slice_ None None (Some (Z.of_nat st))))
    = Ok l ∧
    ∀ k : nat, l !! k = _cards self !! (k * st)%nat.
Proof. apply slice_stride. Qed.

Lemma getitem_stride_witness :
  ∃ l : list Card,
    FrenchDeck.__getitem__ FrenchDeck.__init__
      (Py.Slice (Py.Slice_ None None (Some (Z.of_nat 13)))) = Ok l ∧
    ∀ k : nat, l !! k = _cards FrenchDeck.__init__ !! (k * 13)%nat.
Proof. apply (getitem_stride FrenchDeck.__init__ 13). lia. Defined.

(** ** The sorted deck by position *)

(** X20: in the deck sorted by [spades_high], a card stands at the
    position that is its key. *)
Theorem sorted_deck_positions (fuel : nat) :
  (52 < fuel)%nat →
  ∃ s : list Card,
    deck_sorted fuel spades_high FrenchDeck.__init__ = Some (Ok s) ∧
    ∀ (card : Card) (v : Z),
      spades_high card = Ok v → s !! Z.to_nat v = Some card.
Proof.
  intros Hfuel. unfold deck_sorted.
  rewrite deck_iter_cards by (by rewrite cards_length).
  destruct (Py.sorted spades_high (_cards FrenchDeck.__init__)) as [s|] eqn:Hs;
    [|by vm_compute in Hs].
  exists s. split; [done|]. intros card v Hv.
  assert (Hall : Forall (λ n : nat, ∃ c, s !! n = Some c ∧
                                       spades_high c = Ok (Z.of_nat n)) (seq 0 52)).
  { vm_compute in Hs. injection Hs as <-.
    repeat (constructor; [eexists; split; [reflexivity | by vm_compute]|]).
    constructor. }
  pose proof (spades_high_Ok _ _ Hv) as (i & w & _ & _ & Hvw & Hi & Hw).
  assert (Hn : Z.to_nat v ∈ seq 0 52).
  { apply elem_of_seq. lia. }
  destruct (proj1 (Forall_forall _ _) Hall _ Hn) as (c & Hc & Hkey).
  rewrite Z2Nat.id in Hkey by lia.
  by rewrite (spades_high_inj card c v Hv Hkey).
Qed.

Lemma sorted_deck_positions_witness :
  ∃ s : list Card,
    deck_sorted 53 spades_high FrenchDeck.__init__ = Some (Ok s) ∧
    ∀ (card : Card) (v : Z),
      spades_high card = Ok v → s !! Z.to_nat v = Some card.
Proof. apply (sorted_deck_positions 53). lia. Defined.

(** ** Truthiness of a vector *)

Section Truthiness.
Context {float : Type}.
Context (round : Z → float) (hypot : float → float → float) (nonzero : float → bool).


End Truthiness.


